(** * GitBuddy profile browser: the listing component [Body1]

    A shallow embedding of [src/Component/Body1.js]: the count normalizer
    [safeCount], the list fetcher [generateProfile], the detail fetcher
    [fetchUserDetails] and the derived list [filteredProfiles], followed by
    the properties stated about them.

    Conventions.
    - A JavaScript string is a [string]; each [ascii] stands for one UTF-16
      code unit in the range U+0000..U+00FF (GitHub logins and the text of a
      numeric input are ASCII).
    - A JavaScript number is a [JSNum]: NaN, the two infinities, or a finite
      value carried as the exact rational it denotes.  The two zeros are
      not told apart: none of the operators used by the component
      ([!], [isNaN], [<], [>], [Math.floor], [+]) distinguishes them.
    - React state is a record; a state setter is a record update, applied in
      program order.  An [async] function is cut at its [await]s: the part
      that runs when the function is called, and the part that runs when the
      awaited request settles. *)

From Stdlib Require Import ZArith QArith Qround Ascii String List Bool Lia.
From Stdlib Require Import DecimalString.
From stdpp Require Import base option gmap strings list fin_maps.

Local Open Scope Z_scope.

(** ** JavaScript numbers *)

Module JS.

Inductive JSNum : Type :=
| NaN
| PosInf
| NegInf
| Fin (q : Q).

Definition of_Z (k : Z) : JSNum := Fin (inject_Z k).

(** [ToBoolean] on a number: false for NaN and for zero. *)
Definition truthy (n : JSNum) : bool :=
  match n with
  | NaN => false
  | PosInf | NegInf => true
  | Fin q => negb (Qeq_bool q 0)
  end.

Definition isNaN (n : JSNum) : bool :=
  match n with NaN => true | _ => false end.

(** [a < b]; any comparison with NaN is false. *)
Definition lt (a b : JSNum) : bool :=
  match a, b with
  | NaN, _ | _, NaN => false
  | _, NegInf => false
  | NegInf, _ => true
  | PosInf, _ => false
  | Fin _, PosInf => true
  | Fin x, Fin y => negb (Qle_bool y x)
  end.

Definition gt (a b : JSNum) : bool := lt b a.

(** [Math.floor]. *)
Definition floor (n : JSNum) : JSNum :=
  match n with
  | Fin q => of_Z (Qfloor q)
  | _ => n
  end.

(** *** Rounding a positive rational to the nearest binary64 value

    [round_double num den] is the double nearest to [num/den] (ties to even)
    for [num, den > 0], with underflow to the subnormals and zero and
    overflow to infinity. *)

Definition pow2_le (k num den : Z) : bool :=
  if 0 <=? k then 2 ^ k * den <=? num else den <=? num * 2 ^ (- k).

Definition round_double (num den : Z) : JSNum :=
  let k0 := Z.log2 num - Z.log2 den in
  let k := if pow2_le k0 num den then k0 else k0 - 1 in
  if 1024 <=? k then PosInf else
  let e := Z.max k (-1022) - 52 in
  let n' := if 0 <=? e then num else num * 2 ^ (- e) in
  let d' := if 0 <=? e then den * 2 ^ e else den in
  let q := n' / d' in
  let r := n' mod d' in
  let m := if 2 * r <? d' then q
           else if d' <? 2 * r then q + 1
           else if Z.even q then q else q + 1 in
  if (e =? 971) && (m =? 2 ^ 53) then PosInf
  else if 0 <=? e then of_Z (m * 2 ^ e)
  else Fin (Qred (Qmake m (Z.to_pos (2 ^ (- e))))).

Definition neg (n : JSNum) : JSNum :=
  match n with
  | NaN => NaN
  | PosInf => NegInf
  | NegInf => PosInf
  | Fin q => Fin (Qopp q)
  end.

(** The value [m * 10^e] of a decimal literal, rounded; [m >= 0]. *)
Definition decimal_value (m e : Z) : JSNum :=
  if m =? 0 then of_Z 0
  else if 0 <=? e then round_double (m * 10 ^ e) 1
  else round_double m (10 ^ (- e)).

(** *** Strings *)

(** White space and line terminators below U+0100. *)
Definition is_white (c : ascii) : bool :=
  let n := N_of_ascii c in
  ((9 <=? n) && (n <=? 13) || (n =? 32) || (n =? 160))%N.

Fixpoint trimStart (s : string) : string :=
  match s with
  | String c s' => if is_white c then trimStart s' else s
  | EmptyString => EmptyString
  end.

Definition trimEnd (s : string) : string :=
  String.rev (trimStart (String.rev s)).

(** [String.prototype.trim]. *)
Definition trim (s : string) : string := trimEnd (trimStart s).

(** Lower-casing of one code unit: A-Z, and the Latin-1 capitals
    U+00C0..U+00DE other than the multiplication sign U+00D7. *)
Definition lower_char (c : ascii) : ascii :=
  let n := N_of_ascii c in
  if ((65 <=? n) && (n <=? 90) ||
      (192 <=? n) && (n <=? 222) && negb (n =? 215))%N
  then ascii_of_N (n + 32) else c.

(** [String.prototype.toLowerCase]. *)
Fixpoint toLowerCase (s : string) : string :=
  match s with
  | EmptyString => EmptyString
  | String c s' => String (lower_char c) (toLowerCase s')
  end.

Fixpoint startsWith (s t : string) : bool :=
  match t, s with
  | EmptyString, _ => true
  | String _ _, EmptyString => false
  | String b t', String a s' => if Ascii.eqb a b then startsWith s' t' else false
  end.

(** [String.prototype.includes]: does [t] occur in [s]? *)
Fixpoint includes (s t : string) : bool :=
  startsWith s t ||
  match s with
  | EmptyString => false
  | String _ s' => includes s' t
  end.

(** A string is truthy when it is not empty. *)
Definition nonempty (s : string) : bool :=
  match s with EmptyString => false | _ => true end.

(** *** [Number] applied to a string (StringToNumber) *)

Definition digit_of (base : Z) (c : ascii) : option Z :=
  let n := Z.of_N (N_of_ascii c) in
  let v := if (48 <=? n) && (n <=? 57) then Some (n - 48)
           else if (97 <=? n) && (n <=? 102) then Some (n - 87)
           else if (65 <=? n) && (n <=? 70) then Some (n - 55)
           else None in
  match v with
  | Some d => if d <? base then Some d else None
  | None => None
  end.

(** Reads the longest run of digits in [base] at the head of [s]:
    accumulated value, number of digits read, and the rest. *)
Fixpoint digits (base : Z) (s : string) (acc : Z) (len : Z) : Z * Z * string :=
  match s with
  | EmptyString => (acc, len, s)
  | String c s' =>
      match digit_of base c with
      | Some d => digits base s' (acc * base + d) (len + 1)
      | None => (acc, len, s)
      end
  end.

(** ExponentPart, optional: [e] or [E], an optional sign, at least one
    digit, up to the end of the string. *)
Definition exponent_part (s : string) : option Z :=
  match s with
  | EmptyString => Some 0
  | String c s' =>
      if Ascii.eqb c "e" || Ascii.eqb c "E" then
        let '(sgn, s'') :=
          match s' with
          | String "+" r => (1, r)
          | String "-" r => (-1, r)
          | _ => (1, s')
          end in
        match digits 10 s'' 0 0 with
        | (v, len, EmptyString) => if 0 <? len then Some (sgn * v) else None
        | _ => None
        end
      else None
  end.

(** StrUnsignedDecimalLiteral. *)
Definition unsigned_decimal (s : string) : JSNum :=
  if String.eqb s "Infinity" then PosInf else
  let '(ip, ilen, r) := digits 10 s 0 0 in
  let '(fp, flen, dot, r') :=
    match r with
    | String "." r1 => let '(v, l, r2) := digits 10 r1 ip 0 in (v, l, true, r2)
    | _ => (ip, 0, false, r)
    end in
  if (0 <? ilen) || (0 <? flen) then
    match exponent_part r' with
    | Some e => decimal_value fp (e - flen)
    | None => NaN
    end
  else NaN.

(** NonDecimalIntegerLiteral: all of [s] is digits in [base]. *)
Definition non_decimal (base : Z) (s : string) : JSNum :=
  match digits base s 0 0 with
  | (v, len, EmptyString) =>
      if 0 <? len then (if v =? 0 then of_Z 0 else round_double v 1) else NaN
  | _ => NaN
  end.

Definition StringToNumber (s : string) : JSNum :=
  match trim s with
  | EmptyString => of_Z 0
  | String "0" (String "x" r) | String "0" (String "X" r) => non_decimal 16 r
  | String "0" (String "o" r) | String "0" (String "O" r) => non_decimal 8 r
  | String "0" (String "b" r) | String "0" (String "B" r) => non_decimal 2 r
  | String "+" r => unsigned_decimal r
  | String "-" r => neg (unsigned_decimal r)
  | t => unsigned_decimal t
  end.

End JS.

Import JS.

(** ** The count normalizer *)

(** What [safeCount] is called with: the text of the numeric input, or a
    number ([DEFAULT_COUNT], or a count already normalized). *)
Inductive Raw : Type :=
| RawStr (s : string)
| RawNum (n : JSNum).

(** [Number(raw)]. *)
Definition Number (raw : Raw) : JSNum :=
  match raw with
  | RawStr s => StringToNumber s
  | RawNum n => n
  end.

Definition DEFAULT_COUNT : JSNum := of_Z 10.

Definition safeCount (raw : Raw) : JSNum :=
  let n := Number raw in
  if negb (truthy n) || isNaN n then DEFAULT_COUNT
  else if lt n (of_Z 1) then of_Z 1
  else if gt n (of_Z 100) then of_Z 100
  else floor n.

(** [numberOfProfile || DEFAULT_COUNT], what both buttons normalize. *)
Definition count_input (numberOfProfile : string) : Raw :=
  if nonempty numberOfProfile then RawStr numberOfProfile else RawNum DEFAULT_COUNT.

(** [safeCount(numberOfProfile || DEFAULT_COUNT)], what both buttons pass
    to [generateProfile]. *)
Definition button_count (numberOfProfile : string) : Raw :=
  RawNum (safeCount (count_input numberOfProfile)).

(** ** Data *)

(** An element of the list endpoint's response. *)
Record User : Type := mkUser {
  login : string;
  id : Z;
  avatar_url : string;
  html_url : string;
  repos_url : string
}.

(** The object returned by the detail endpoint; [None] is [null] or absent. *)
Record UserObj : Type := mkUserObj {
  obj_followers : option Z;
  obj_following : option Z;
  obj_bio : option string;
  obj_location : option string;
  obj_company : option string
}.

(** A value of [detailsMap]; the three object shapes the component stores:
    [{ loading: true }], the full record written on success, and
    [{ loading: false, error: true }].  A count of [None] is the dash
    placeholder. *)
Inductive Detail : Type :=
| DLoading
| DReady (followers following : option Z) (bio location company : string)
         (fetched : Z)
| DFailed.

(** [d.fetchedAt], [undefined] as [None]. *)
Definition fetchedAt (d : Detail) : option Z :=
  match d with
  | DReady _ _ _ _ _ t => Some t
  | _ => None
  end.

(** [d.loading] and [d.error] as truth values. *)
Definition det_loading (d : Detail) : bool :=
  match d with DLoading => true | _ => false end.

Definition det_error (d : Detail) : bool :=
  match d with DFailed => true | _ => false end.

(** A thrown error object. *)
Record JSError : Type := mkError {
  err_name : string;
  err_message : string
}.

(** An [AbortController] is identified by a number; [abort()] records it in
    the set of aborted controllers. *)
Definition Controller : Type := nat.

(** The component's state: the [useState] cells and [abortRef]. *)
Record State : Type := mkState {
  profile : list User;
  numberOfProfile : string;
  loading : bool;
  loadingMore : bool;
  error : string;
  searchInput : string;
  debouncedSearch : string;
  sinceCursor : option Z;
  detailsMap : gmap string Detail;
  message : string;
  abortRef : option Controller
}.

Definition initial : State :=
  {| profile := []; numberOfProfile := ""; loading := false;
     loadingMore := false; error := ""; searchInput := "";
     debouncedSearch := ""; sinceCursor := None; detailsMap := ∅;
     message := ""; abortRef := None |}.

(** *** State setters *)

Definition setProfile (f : list User -> list User) (st : State) : State :=
  mkState (f (profile st)) (numberOfProfile st) (loading st) (loadingMore st)
    (error st) (searchInput st) (debouncedSearch st) (sinceCursor st)
    (detailsMap st) (message st) (abortRef st).

Definition setLoading (b : bool) (st : State) : State :=
  mkState (profile st) (numberOfProfile st) b (loadingMore st)
    (error st) (searchInput st) (debouncedSearch st) (sinceCursor st)
    (detailsMap st) (message st) (abortRef st).

Definition setLoadingMore (b : bool) (st : State) : State :=
  mkState (profile st) (numberOfProfile st) (loading st) b
    (error st) (searchInput st) (debouncedSearch st) (sinceCursor st)
    (detailsMap st) (message st) (abortRef st).

Definition setError (e : string) (st : State) : State :=
  mkState (profile st) (numberOfProfile st) (loading st) (loadingMore st)
    e (searchInput st) (debouncedSearch st) (sinceCursor st)
    (detailsMap st) (message st) (abortRef st).

Definition setSearchInput (s : string) (st : State) : State :=
  mkState (profile st) (numberOfProfile st) (loading st) (loadingMore st)
    (error st) s (debouncedSearch st) (sinceCursor st)
    (detailsMap st) (message st) (abortRef st).

Definition setDebouncedSearch (s : string) (st : State) : State :=
  mkState (profile st) (numberOfProfile st) (loading st) (loadingMore st)
    (error st) (searchInput st) s (sinceCursor st)
    (detailsMap st) (message st) (abortRef st).

Definition setSinceCursor (c : option Z) (st : State) : State :=
  mkState (profile st) (numberOfProfile st) (loading st) (loadingMore st)
    (error st) (searchInput st) (debouncedSearch st) c
    (detailsMap st) (message st) (abortRef st).

Definition setDetailsMap (f : gmap string Detail -> gmap string Detail)
    (st : State) : State :=
  mkState (profile st) (numberOfProfile st) (loading st) (loadingMore st)
    (error st) (searchInput st) (debouncedSearch st) (sinceCursor st)
    (f (detailsMap st)) (message st) (abortRef st).

Definition setMessage (m : string) (st : State) : State :=
  mkState (profile st) (numberOfProfile st) (loading st) (loadingMore st)
    (error st) (searchInput st) (debouncedSearch st) (sinceCursor st)
    (detailsMap st) m (abortRef st).

Definition setAbortRef (c : option Controller) (st : State) : State :=
  mkState (profile st) (numberOfProfile st) (loading st) (loadingMore st)
    (error st) (searchInput st) (debouncedSearch st) (sinceCursor st)
    (detailsMap st) (message st) c.

(** ** Small helpers of the component *)

(** The debounce timer fires: [setDebouncedSearch(searchInput.trim().toLowerCase())]. *)
Definition debounce_fire (st : State) : State :=
  setDebouncedSearch (toLowerCase (trim (searchInput st))) st.

(** [flashMessage]: the message is shown; the timer that clears it is the
    separate event [flash_timeout]. *)
Definition flashMessage (txt : string) (st : State) : State := setMessage txt st.

Definition flash_timeout (st : State) : State := setMessage "" st.

(** The Clear button. *)
Definition clear_click (st : State) : State :=
  flashMessage "Search cleared" (setDebouncedSearch "" (setSearchInput "" st)).

Definition show_nat (n : nat) : string := NilZero.string_of_uint (Nat.to_uint n).
Definition show_Z (z : Z) : string := NilZero.string_of_int (Z.to_int z).

(** ** The list fetcher [generateProfile] *)

(** [fetch(`.../users?since=${since}&per_page=${count}`, { signal })]. *)
Record Request : Type := mkRequest {
  rq_since : Z;
  rq_per_page : JSNum;
  rq_signal : Controller
}.

(** A call of [generateProfile] suspended at its [await]: the [append]
    argument it was called with and the request it waits for. *)
Record Pending : Type := mkPending {
  pd_append : bool;
  pd_request : Request
}.

(** What the two [await]s deliver: a response with [res.ok] whose body
    parses to an array, a response without [res.ok], or a rejection of
    [fetch] or of [res.json()]. *)
Inductive Outcome : Type :=
| RespOk (data : list User)
| RespNotOk (status : Z) (statusText : string)
| Rejected (err : JSError).

(** The component together with its environment: the controllers on which
    [abort()] was called, the suspended calls, and the next controller. *)
Record World : Type := mkWorld {
  ui : State;
  aborted : list Controller;
  inflight : list Pending;
  next_controller : Controller
}.

Definition mount : World :=
  {| ui := initial; aborted := []; inflight := []; next_controller := 0%nat |}.

(** From the call to [await fetch(...)].  [rnd] is the value drawn by
    [Math.floor(1 + Math.random() * 10000)]. *)
Definition generateProfile (countPages : Raw) (append : bool) (rnd : Z)
    (w : World) : World :=
  let st := setError "" (ui w) in
  let count := safeCount countPages in
  let ab := match abortRef st with
            | Some c => c :: aborted w
            | None => aborted w
            end in
  let controller := next_controller w in
  let st := setAbortRef (Some controller) st in
  let st := if append then setLoadingMore true st else setLoading true st in
  let since := match sinceCursor st with
               | Some c => if append && negb (c =? 0) then c else rnd
               | None => rnd
               end in
  {| ui := st;
     aborted := ab;
     inflight := inflight w ++ [mkPending append (mkRequest since count controller)];
     next_controller := S controller |}.

(** The rest of the [try] block: the state reached and the error thrown, if
    any. *)
Definition generateProfile_try (append : bool) (o : Outcome) (st : State)
    : State * option JSError :=
  match o with
  | Rejected err => (st, Some err)
  | RespNotOk status statusText =>
      (st, Some (mkError "Error"
                   ("GitHub API error: " +:+ show_Z status +:+ " " +:+ statusText)))
  | RespOk data =>
      let st := match last data with
                | Some u => setSinceCursor (Some (id u + 1)) st
                | None => st
                end in
      let st := setProfile (fun prev => if append then prev ++ data else data) st in
      (flashMessage
         (if append then "Appended " +:+ show_nat (length data) +:+ " profiles"
          else "Loaded " +:+ show_nat (length data) +:+ " profiles") st,
       None)
  end.

Definition generateProfile_catch (append : bool) (err : JSError) (st : State)
    : State :=
  if String.eqb (err_name err) "AbortError" then st
  else
    let st := setError (if nonempty (err_message err) then err_message err
                        else "Failed to load profiles.") st in
    setProfile (fun p => if append then p else []) st.

Definition generateProfile_finally (st : State) : State :=
  setAbortRef None (setLoadingMore false (setLoading false st)).

(** From the settling of the request to the end of the call. *)
Definition generateProfile_resume (append : bool) (o : Outcome) (st : State)
    : State :=
  let '(st, thrown) := generateProfile_try append o st in
  let st := match thrown with
            | Some err => generateProfile_catch append err st
            | None => st
            end in
  generateProfile_finally st.

(** *** Runs of the list lane *)

Inductive Event : Type :=
| Call (countPages : Raw) (append : bool) (rnd : Z)
| Settle (c : Controller) (o : Outcome).

Definition is_abort (o : Outcome) : bool :=
  match o with
  | Rejected err => String.eqb (err_name err) "AbortError"
  | _ => false
  end.

Definition awaits (c : Controller) (p : Pending) : bool :=
  Nat.eqb (rq_signal (pd_request p)) c.

Definition was_aborted (c : Controller) (w : World) : bool :=
  existsb (Nat.eqb c) (aborted w).

(** One event.  A call draws its seed in 1..10000.  A request settles only
    while it is awaited, and it is rejected with an [AbortError] exactly
    when its controller was aborted. *)
Definition exec (e : Event) (w : World) : option World :=
  match e with
  | Call countPages append rnd =>
      if (1 <=? rnd) && (rnd <=? 10000)
      then Some (generateProfile countPages append rnd w)
      else None
  | Settle c o =>
      match List.find (awaits c) (inflight w) with
      | Some p =>
          if Bool.eqb (is_abort o) (was_aborted c w)
          then Some {| ui := generateProfile_resume (pd_append p) o (ui w);
                       aborted := aborted w;
                       inflight := List.filter (fun p => negb (awaits c p)) (inflight w);
                       next_controller := next_controller w |}
          else None
      | None => None
      end
  end.

Fixpoint run (es : list Event) (w : World) : option World :=
  match es with
  | [] => Some w
  | e :: es' =>
      match exec e w with
      | Some w' => run es' w'
      | None => None
      end
  end.

(** ** The detail fetcher [fetchUserDetails] *)

Inductive DetailOutcome : Type :=
| DetOk (obj : UserObj) (now : Z)
| DetNotOk (status : Z)
| DetRejected (err : JSError).

Definition FRESH_MS : Z := 1000 * 60 * 5.

(** From the call to [await fetch(...)]; [now] is the reading of
    [Date.now()].  The second component is the login requested from the
    detail endpoint, or [None] when the call returns without a request. *)
Definition fetchUserDetails (l : string) (now : Z) (st : State)
    : State * option string :=
  if negb (nonempty l) then (st, None)
  else
    let existing := detailsMap st !! l in
    let fresh := match existing with
                 | Some d => now - default 0 (fetchedAt d) <? FRESH_MS
                 | None => false
                 end in
    if fresh then (st, None)
    else (setDetailsMap (fun d => <[l := DLoading]> d) st, Some l).

(** From the settling of the request to the end of the call; on success
    [now] is the second reading of [Date.now()]. *)
Definition fetchUserDetails_resume (l : string) (o : DetailOutcome) (st : State)
    : State :=
  match o with
  | DetOk obj now =>
      let details :=
        DReady (obj_followers obj) (obj_following obj)
               (default "" (obj_bio obj)) (default "" (obj_location obj))
               (default "" (obj_company obj)) now in
      setDetailsMap (fun d => <[l := details]> d) st
  | DetNotOk _ | DetRejected _ =>
      let st := setDetailsMap (fun d => <[l := DFailed]> d) st in
      flashMessage "Could not fetch details (rate-limit?)" st
  end.

(** ** The derived list *)

Definition filteredProfiles (st : State) : list User :=
  List.filter (fun p => includes (toLowerCase (login p)) (debouncedSearch st))
              (profile st).

(** ** What a row shows *)

(** [det.followers] and [det.following] of a stored entry; only the full
    record has them ([None] is the dash placeholder). *)
Definition det_followers (d : Detail) : option Z :=
  match d with DReady f _ _ _ _ _ => f | _ => None end.

Definition det_following (d : Detail) : option Z :=
  match d with DReady _ g _ _ _ _ => g | _ => None end.

(** [det.bio], [undefined] as [None]. *)
Definition det_bio (d : Detail) : option string :=
  match d with DReady _ _ b _ _ _ => Some b | _ => None end.

(** The line under the login: the two counts, the text "Loading
    details...", or the placeholder with the "Load details" button. *)
Inductive RowHeader : Type :=
| Counts (followers following : option Z)
| LoadingDetails
| LoadButton.

(** [det && !det.loading && !det.error ? ... : det && det.loading ? ... : ...]. *)
Definition row_header (det : option Detail) : RowHeader :=
  match det with
  | Some d =>
      if negb (det_loading d) && negb (det_error d)
      then Counts (det_followers d) (det_following d)
      else if det_loading d then LoadingDetails else LoadButton
  | None => LoadButton
  end.

(** [det && det.bio ? <p>{det.bio}</p> : null]. *)
Definition row_bio (det : option Detail) : option string :=
  match det with
  | Some d =>
      match det_bio d with
      | Some b => if nonempty b then Some b else None
      | None => None
      end
  | None => None
  end.

(** [det && det.error]: the note "Could not load details." *)
Definition row_error_note (det : option Detail) : bool :=
  match det with
  | Some d => det_error d
  | None => false
  end.

(** The row of a user: [const det = detailsMap[value.login]]. *)
Definition row_det (st : State) (value : User) : option Detail :=
  detailsMap st !! login value.

(** The "Load details" button of a row, clicked at clock reading [now]:
    [fetchUserDetails(value.login)] when the row shows the button, nothing
    otherwise. *)
Definition details_click (value : User) (now : Z) (st : State)
    : State * option string :=
  match row_header (row_det st value) with
  | LoadButton => fetchUserDetails (login value) now st
  | _ => (st, None)
  end.

(** [filteredProfiles.length === 0 && !loading]: the notice "No profiles
    match your search." *)
Definition empty_notice (st : State) : bool :=
  (length (filteredProfiles st) =? 0)%nat && negb (loading st).

(** [error && ...]: the error line is shown. *)
Definition error_shown (st : State) : bool := nonempty (error st).

(** ** The hook [useFetch] *)

Module UseFetch.

(** The hook's two [useState] cells. *)
Record HookState : Type := mkHookState {
  profile : list User;
  numberOfProfile : string
}.

(** [fetch(`.../users?since=${randomValue}&per_page=${countPages}`)]: the
    count is interpolated as it was passed. *)
Record HookRequest : Type := mkHookRequest {
  since : Z;
  per_page : Raw
}.

(** From the call to [await fetch(...)]: no state is written. *)
Definition generateProfile (countPages : Raw) (rnd : Z) (hs : HookState)
    : HookState * HookRequest :=
  (hs, mkHookRequest rnd countPages).

(** From the settling of the request to the end of the call:
    [setProfile(data)], or [setProfile([])] in the [catch] block. *)
Definition generateProfile_resume (o : Outcome) (hs : HookState) : HookState :=
  match o with
  | RespOk data => mkHookState data (numberOfProfile hs)
  | RespNotOk _ _ | Rejected _ => mkHookState [] (numberOfProfile hs)
  end.

End UseFetch.

(** ** Vocabulary of the statements *)

(** The number is a zero. *)
Definition is_zero (n : JSNum) : bool :=
  match n with Fin q => Qeq_bool q 0 | _ => false end.

(** Two strings that differ at most in the case of their letters. *)
Definition same_ignoring_case (a b : string) : Prop :=
  toLowerCase a = toLowerCase b.

(** [t] occurs in [s] as a substring, up to the case of letters. *)
Definition contains_ignoring_case (s t : string) : Prop :=
  exists pre mid post, s = pre +:+ mid +:+ post /\ same_ignoring_case mid t.

(** A settled request failed: the response is not [ok], or [fetch] or
    [res.json()] rejected with something other than an [AbortError]. *)
Definition failed (o : Outcome) : bool :=
  match o with
  | RespOk _ => false
  | RespNotOk _ _ => true
  | Rejected err => negb (String.eqb (err_name err) "AbortError")
  end.

(** A settled detail request failed: a response that is not [ok], or a
    rejection. *)
Definition detail_failed (o : DetailOutcome) : bool :=
  match o with DetOk _ _ => false | _ => true end.

(** The controllers of the suspended calls, oldest first. *)
Definition controllers (w : World) : list Controller :=
  map (fun p => rq_signal (pd_request p)) (inflight w).

(** The requests of the suspended calls, oldest first. *)
Definition requests (w : World) : list Request :=
  map pd_request (inflight w).

(** A string of white space only. *)
Fixpoint blank (s : string) : bool :=
  match s with
  | EmptyString => true
  | String c s' => is_white c && blank s'
  end.

(** What holds of the controllers in every run: the suspended calls have
    distinct controllers, every controller in use was handed out before the
    next one, and the handle, when set, is the controller handed out last,
    whose call is suspended and not aborted. *)
Record Inv (w : World) : Prop := mkInv {
  inv_nodup : NoDup (controllers w);
  inv_inflight : Forall (fun c => (c < next_controller w)%nat) (controllers w);
  inv_aborted : Forall (fun c => (c < next_controller w)%nat) (aborted w);
  inv_handle : forall c, abortRef (ui w) = Some c ->
    In c (controllers w) /\ was_aborted c w = false /\ S c = next_controller w
}.

(** ** Sample data *)

(** The rejection delivered to a call whose controller was aborted. *)
Definition abort_error : JSError :=
  mkError "AbortError" "signal is aborted without reason".

Definition sample_users : list User :=
  [ mkUser "octocat" 583231 "" "" "";
    mkUser "torvalds" 1024025 "" "" "";
    mkUser "mojombo" 1 "" "" "" ].

Definition page_b : list User := [ mkUser "defunkt" 2 "" "" "" ].
Definition page_c : list User := [ mkUser "pjhyett" 3 "" "" "" ].

Definition octocat_obj : UserObj :=
  mkUserObj (Some 9000) (Some 9) None (Some "San Francisco") (Some "@github").

(** The state holding a given working list and debounced term. *)
Definition showing (users : list User) (term : string) : State :=
  setDebouncedSearch term (setProfile (fun _ => users) initial).

(** The sample list with one entry in the details. *)
Definition one_row (l : string) (d : Detail) : State :=
  setDetailsMap (fun m => <[l := d]> m) (setProfile (fun _ => sample_users) initial).

(** The component mounts (the first load starts), and Load More is clicked
    while that load is in flight. *)
Definition superseding : list Event :=
  [ Call (RawNum DEFAULT_COUNT) false 4711;
    Call (button_count "") true 42 ].

(** The world after [superseding]: the first load cancelled, the second
    awaited. *)
Definition world_superseded : World :=
  generateProfile (button_count "") true 42
    (generateProfile (RawNum DEFAULT_COUNT) false 4711 mount).

(** * Properties *)

(** ** Evaluation on literals *)

Example number_examples :
  StringToNumber "" = of_Z 0 /\ StringToNumber " 42 " = of_Z 42 /\
  StringToNumber "abc" = NaN /\ StringToNumber "-5" = Fin (-5 # 1) /\
  StringToNumber "1e2" = of_Z 100 /\ StringToNumber "0x1F" = of_Z 31 /\
  StringToNumber "1e-400" = of_Z 0 /\ StringToNumber "1e400" = PosInf /\
  StringToNumber "12px" = NaN /\ StringToNumber "." = NaN /\
  StringToNumber ".5" = Fin (1 # 2) /\ StringToNumber "5." = of_Z 5 /\
  StringToNumber "0.3" = Fin (5404319552844595 # 18014398509481984).
Proof. vm_compute. repeat split. Qed.

Example safeCount_examples :
  safeCount (RawStr "") = of_Z 10 /\ safeCount (RawStr "abc") = of_Z 10 /\
  safeCount (RawStr "0") = of_Z 10 /\ safeCount (RawStr "-5") = of_Z 1 /\
  safeCount (RawStr "0.3") = of_Z 1 /\ safeCount (RawStr "7.9") = of_Z 7 /\
  safeCount (RawStr "100.5") = of_Z 100 /\ safeCount (RawStr "250") = of_Z 100 /\
  safeCount (RawStr "1e-400") = of_Z 10 /\ safeCount (RawStr "-Infinity") = of_Z 1 /\
  safeCount (RawStr "Infinity") = of_Z 100 /\ safeCount (RawStr "42") = of_Z 42.
Proof. vm_compute. repeat split. Qed.

(** ** Numbers *)

Lemma of_Z_inj (a b : Z) : of_Z a = of_Z b -> a = b.
Proof. unfold of_Z, inject_Z. congruence. Qed.

Lemma truthy_false (n : JSNum) :
  truthy n = false <-> isNaN n = true \/ is_zero n = true.
Proof.
  destruct n as [ | | |q]; simpl; rewrite ?negb_false_iff;
    intuition congruence.
Qed.

Lemma lt_Fin_one (q : Q) : lt (Fin q) (of_Z 1) = true <-> (q < 1)%Q.
Proof.
  unfold lt, of_Z. rewrite negb_true_iff, <- not_true_iff_false, Qle_bool_iff.
  split; [apply Qnot_le_lt | apply Qlt_not_le].
Qed.

Lemma gt_Fin_hundred (q : Q) : gt (Fin q) (of_Z 100) = true <-> (100 < q)%Q.
Proof.
  unfold gt, lt, of_Z. rewrite negb_true_iff, <- not_true_iff_false, Qle_bool_iff.
  split; [apply Qnot_le_lt | apply Qlt_not_le].
Qed.

Lemma Qfloor_between (q : Q) (a b : Z) :
  (inject_Z a <= q)%Q -> (q <= inject_Z b)%Q -> a <= Qfloor q <= b.
Proof.
  intros Ha Hb. split.
  - rewrite <- (Qfloor_Z a). now apply Qfloor_resp_le.
  - rewrite <- (Qfloor_Z b). now apply Qfloor_resp_le.
Qed.

(** The value of [safeCount] by the value that [Number] gives its argument. *)
Lemma safeCount_cases (raw : Raw) :
  match Number raw with
  | NaN => safeCount raw = of_Z 10
  | NegInf => safeCount raw = of_Z 1
  | PosInf => safeCount raw = of_Z 100
  | Fin q =>
      (q == 0 -> safeCount raw = of_Z 10)%Q /\
      (~ q == 0 -> q < 1 -> safeCount raw = of_Z 1)%Q /\
      (100 < q -> safeCount raw = of_Z 100)%Q /\
      (1 <= q -> q <= 100 -> safeCount raw = of_Z (Qfloor q))%Q
  end.
Proof.
  unfold safeCount. destruct (Number raw) as [ | | |q] eqn:E; try reflexivity.
  assert (Hz : (q == 0)%Q <-> Qeq_bool q 0 = true) by (symmetry; apply Qeq_bool_iff).
  assert (H1 := lt_Fin_one q). assert (H100 := gt_Fin_hundred q).
  cbn [truthy isNaN]. rewrite orb_false_r, negb_involutive.
  repeat split.
  - intros H. apply Hz in H. now rewrite H.
  - intros Hnz Hlt. destruct (Qeq_bool q 0) eqn:Ez; [exfalso; apply Hnz, Hz; reflexivity|].
    apply H1 in Hlt. now rewrite Hlt.
  - intros Hgt.
    assert (Hq1 : ~ (q < 1)%Q).
    { intros Hlt. apply (Qlt_irrefl q). eapply Qlt_trans; [exact Hlt|].
      eapply Qlt_trans; [|exact Hgt]. reflexivity. }
    destruct (Qeq_bool q 0) eqn:Ez.
    { exfalso. apply Hq1. assert (Hq0 : (q == 0)%Q) by (apply Hz; reflexivity).
      rewrite Hq0. reflexivity. }
    destruct (lt (Fin q) (of_Z 1)) eqn:El; [exfalso; apply Hq1, H1; reflexivity|].
    apply H100 in Hgt. now rewrite Hgt.
  - intros Hge Hle.
    destruct (Qeq_bool q 0) eqn:Ez.
    { exfalso. assert (Hq0 : (q == 0)%Q) by (apply Hz; reflexivity).
      rewrite Hq0 in Hge. revert Hge. apply Qlt_not_le. reflexivity. }
    destruct (lt (Fin q) (of_Z 1)) eqn:El.
    { exfalso. apply (Qlt_not_le q 1); [apply H1; reflexivity | exact Hge]. }
    destruct (gt (Fin q) (of_Z 100)) eqn:Eg.
    { exfalso. apply (Qlt_not_le 100 q); [apply H100; reflexivity | exact Hle]. }
    reflexivity.
Qed.

(** Every result is an integer between 1 and 100, whatever the argument. *)
Lemma safeCount_range (raw : Raw) :
  exists k : Z, safeCount raw = of_Z k /\ 1 <= k <= 100.
Proof.
  assert (H := safeCount_cases raw).
  destruct (Number raw) as [ | | |q].
  - exists 10. split; [exact H | lia].
  - exists 100. split; [exact H | lia].
  - exists 1. split; [exact H | lia].
  - destruct H as (Hz & Hlow & Hhigh & Hmid).
    destruct (Qeq_dec q 0) as [E0|N0]; [exists 10; split; [auto | lia]|].
    destruct (Qlt_le_dec q 1) as [L1|G1]; [exists 1; split; [auto | lia]|].
    destruct (Qlt_le_dec 100 q) as [L100|G100]; [exists 100; split; [auto | lia]|].
    exists (Qfloor q). split; [auto|].
    apply Qfloor_between; assumption.
Qed.

Lemma Qfloor_ten (q : Q) : Qfloor q = 10 <-> (10 <= q /\ q < 11)%Q.
Proof.
  split.
  - intros H. split.
    + change 10%Q with (inject_Z 10). rewrite <- H. apply Qfloor_le.
    + change 11%Q with (inject_Z (10 + 1)). rewrite <- H. apply Qlt_floor.
  - intros [Hlo Hhi].
    assert (H1 : 10 <= Qfloor q).
    { rewrite <- (Qfloor_Z 10). now apply Qfloor_resp_le. }
    assert (H2 : Qfloor q < 11).
    { rewrite Zlt_Qlt. eapply Qle_lt_trans; [apply Qfloor_le | exact Hhi]. }
    lia.
Qed.

(** [safeCount] returns the default exactly for NaN, for zero, and for the
    numbers whose floor is 10. *)
Lemma safeCount_default_iff (raw : Raw) :
  safeCount raw = DEFAULT_COUNT <->
  isNaN (Number raw) = true \/ is_zero (Number raw) = true \/
  exists q, Number raw = Fin q /\ (10 <= q /\ q < 11)%Q.
Proof.
  assert (H := safeCount_cases raw). unfold DEFAULT_COUNT.
  destruct (Number raw) as [ | | |q] eqn:E; simpl.
  - split; auto.
  - rewrite H. split.
    + intros C. apply of_Z_inj in C. lia.
    + intros [C|[C|(q & C & _)]]; congruence.
  - rewrite H. split.
    + intros C. apply of_Z_inj in C. lia.
    + intros [C|[C|(q & C & _)]]; congruence.
  - destruct H as (Hz & Hlow & Hhigh & Hmid).
    destruct (Qeq_dec q 0) as [E0|N0].
    { split; [|auto]. intros _. right. left. now apply Qeq_bool_iff. }
    assert (Ez : Qeq_bool q 0 = false).
    { apply not_true_iff_false. intros C. now apply Qeq_bool_iff in C. }
    rewrite Ez.
    destruct (Qlt_le_dec q 1) as [L1|G1].
    { rewrite (Hlow N0 L1). split.
      - intros C. apply of_Z_inj in C. lia.
      - intros [C|[C|(q' & C & Hlo & _)]]; try congruence.
        injection C as <-. exfalso. apply (Qlt_not_le _ _ L1).
        eapply Qle_trans; [|exact Hlo]. discriminate. }
    destruct (Qlt_le_dec 100 q) as [L100|G100].
    { rewrite (Hhigh L100). split.
      - intros C. apply of_Z_inj in C. lia.
      - intros [C|[C|(q' & C & _ & Hhi)]]; try congruence.
        injection C as <-. exfalso. apply (Qlt_irrefl q).
        eapply Qlt_trans; [exact Hhi|]. eapply Qlt_trans; [|exact L100]. reflexivity. }
    rewrite (Hmid G1 G100). split.
    + intros C. apply of_Z_inj in C. right. right. exists q.
      split; [reflexivity | now apply Qfloor_ten].
    + intros [C|[C|(q' & C & Hq)]]; try congruence.
      injection C as <-. apply Qfloor_ten in Hq. now rewrite Hq.
Qed.

(** C3. [safeCount] is a total function on strings: for every string it
    returns an integer between 1 and 100.  A string that is not numeric
    (its value is NaN), the empty string, and a string whose value is zero
    give the default 10; a string whose value lies between 1 and 100 gives
    the floor of that value. *)
Theorem safeCount_total_in_range (s : string) :
  (exists k : Z, safeCount (RawStr s) = of_Z k /\ 1 <= k <= 100) /\
  (StringToNumber s = NaN -> safeCount (RawStr s) = of_Z 10) /\
  safeCount (RawStr "") = of_Z 10 /\
  (is_zero (StringToNumber s) = true -> safeCount (RawStr s) = of_Z 10) /\
  (forall q, StringToNumber s = Fin q -> (1 <= q)%Q -> (q <= 100)%Q ->
     safeCount (RawStr s) = of_Z (Qfloor q)).
Proof.
  assert (H := safeCount_cases (RawStr s)). cbn [Number] in H.
  split; [apply safeCount_range|].
  split; [intros E; now rewrite E in H|].
  split; [reflexivity|].
  split.
  - intros Hz. destruct (StringToNumber s) as [ | | |q]; try discriminate.
    apply H. now apply Qeq_bool_iff.
  - intros q E H1 H100. rewrite E in H. now apply H.
Qed.

Lemma safeCount_total_in_range_witness :
  safeCount (RawStr "abc") = of_Z 10 /\
  safeCount (RawStr "0.0") = of_Z 10 /\
  safeCount (RawStr "42.5") = of_Z (Qfloor (85 # 2)).
Proof.
  split; [|split].
  - destruct (safeCount_total_in_range "abc") as (_ & Hnan & _).
    apply Hnan. vm_compute. reflexivity.
  - destruct (safeCount_total_in_range "0.0") as (_ & _ & _ & Hzero & _).
    apply Hzero. vm_compute. reflexivity.
  - destruct (safeCount_total_in_range "42.5") as (_ & _ & _ & _ & Hfloor).
    apply Hfloor.
    + vm_compute. reflexivity.
    + vm_compute. discriminate.
    + vm_compute. discriminate.
Defined.

(** C9. A string whose value is a number other than zero and below 1 (a
    negative number, a fraction, minus infinity) gives 1, the lower clamp,
    and not the default; a string whose value is zero or NaN gives the
    default 10; and among the strings whose value is below 1 or NaN, only
    those give the default.  (Above 1 the default is also the floor of the
    values from 10 up to 11.) *)
Theorem safeCount_lower_clamp (s : string) :
  let n := StringToNumber s in
  (isNaN n = false -> is_zero n = false -> lt n (of_Z 1) = true ->
     safeCount (RawStr s) = of_Z 1 /\ safeCount (RawStr s) <> DEFAULT_COUNT) /\
  (isNaN n = true \/ is_zero n = true -> safeCount (RawStr s) = DEFAULT_COUNT) /\
  (isNaN n = true \/ lt n (of_Z 1) = true ->
     safeCount (RawStr s) = DEFAULT_COUNT -> isNaN n = true \/ is_zero n = true) /\
  (safeCount (RawStr s) = DEFAULT_COUNT <->
     isNaN n = true \/ is_zero n = true \/
     exists q, n = Fin q /\ (10 <= q /\ q < 11)%Q).
Proof.
  intros n. assert (H := safeCount_cases (RawStr s)). cbn [Number] in H.
  assert (D := safeCount_default_iff (RawStr s)). cbn [Number] in D.
  fold n in H, D.
  assert (Hclamp : isNaN n = false -> is_zero n = false -> lt n (of_Z 1) = true ->
                   safeCount (RawStr s) = of_Z 1).
  { intros Hn Hz Hl. destruct n as [ | | |q]; try discriminate; [exact H|].
    apply H.
    - intros C. apply Qeq_bool_iff in C. simpl in Hz. congruence.
    - now apply lt_Fin_one. }
  split; [|split; [|split]].
  - intros Hn Hz Hl. split; [auto|]. rewrite (Hclamp Hn Hz Hl).
    intros C. apply of_Z_inj in C. lia.
  - intros Hd. apply D. tauto.
  - intros Hlow Hdef.
    destruct (isNaN n) eqn:En; [auto|]. destruct (is_zero n) eqn:Ez; [auto|].
    destruct Hlow as [C|Hl]; [discriminate|].
    rewrite (Hclamp eq_refl eq_refl Hl) in Hdef. apply of_Z_inj in Hdef. lia.
  - exact D.
Qed.

Lemma safeCount_lower_clamp_witness :
  safeCount (RawStr "-5") = of_Z 1 /\ safeCount (RawStr "0.3") = of_Z 1 /\
  safeCount (RawStr "0") = DEFAULT_COUNT /\ safeCount (RawStr "n/a") = DEFAULT_COUNT.
Proof.
  split; [|split; [|split]].
  - destruct (safeCount_lower_clamp "-5") as (Hclamp & _).
    apply Hclamp; vm_compute; reflexivity.
  - destruct (safeCount_lower_clamp "0.3") as (Hclamp & _).
    apply Hclamp; vm_compute; reflexivity.
  - destruct (safeCount_lower_clamp "0") as (_ & Hdef & _).
    apply Hdef. right. vm_compute. reflexivity.
  - destruct (safeCount_lower_clamp "n/a") as (_ & Hdef & _).
    apply Hdef. left. vm_compute. reflexivity.
Defined.

(** ** Strings and the derived list *)

Lemma app_String (c : ascii) (s t : string) :
  String c s +:+ t = String c (s +:+ t).
Proof. reflexivity. Qed.

Lemma app_empty_l (t : string) : "" +:+ t = t.
Proof. reflexivity. Qed.

Lemma startsWith_spec (s t : string) :
  startsWith s t = true <-> exists post, s = t +:+ post.
Proof.
  revert s. induction t as [|b t IH]; intros s.
  - destruct s; simpl; (split; [intros _; eexists; reflexivity | reflexivity]).
  - destruct s as [|a s]; simpl.
    + split; [discriminate | intros (post & C); discriminate].
    + destruct (Ascii.eqb_spec a b) as [->|Hne].
      * rewrite IH. split; intros (post & E); exists post.
        -- rewrite app_String. now f_equal.
        -- rewrite app_String in E. now injection E.
      * split; [discriminate|]. intros (post & E).
        rewrite app_String in E. injection E as E1 E2. contradiction.
Qed.

(** [includes s t] holds exactly when [t] occurs somewhere in [s]. *)
Lemma includes_spec (s t : string) :
  includes s t = true <-> exists pre post, s = pre +:+ t +:+ post.
Proof.
  induction s as [|a s IH].
  - cbn [includes]. rewrite orb_false_r, startsWith_spec. split.
    + intros (post & E). exists "", post. exact E.
    + intros (pre & post & E). destruct pre; [now exists post | discriminate].
  - cbn [includes]. rewrite orb_true_iff, IH, startsWith_spec. split.
    + intros [(post & E)|(pre & post & E)].
      * exists "", post. exact E.
      * exists (String a pre), post. rewrite app_String. now f_equal.
    + intros (pre & post & E). destruct pre as [|c pre].
      * left. now exists post.
      * right. rewrite app_String in E. injection E as _ E. now exists pre, post.
Qed.

Lemma includes_empty (s : string) : includes s "" = true.
Proof. apply includes_spec. exists "", s. reflexivity. Qed.

Lemma lower_char_idem (c : ascii) : lower_char (lower_char c) = lower_char c.
Proof. destruct c as [[] [] [] [] [] [] [] []]; reflexivity. Qed.

Lemma toLowerCase_idem (s : string) : toLowerCase (toLowerCase s) = toLowerCase s.
Proof.
  induction s as [|c s IH]; simpl; [reflexivity|].
  now rewrite lower_char_idem, IH.
Qed.

Lemma toLowerCase_app (s t : string) :
  toLowerCase (s +:+ t) = toLowerCase s +:+ toLowerCase t.
Proof.
  induction s as [|c s IH]; [reflexivity|].
  rewrite app_String. simpl. rewrite app_String. now rewrite IH.
Qed.

(** A split of the lower-cased string comes from a split of the string. *)
Lemma toLowerCase_split (s x y : string) :
  toLowerCase s = x +:+ y ->
  exists a b, s = a +:+ b /\ toLowerCase a = x /\ toLowerCase b = y.
Proof.
  revert s. induction x as [|c x IH]; intros s E.
  - exists "", s. auto.
  - destruct s as [|d s]; [discriminate|].
    simpl in E. rewrite app_String in E. injection E as Ec Es.
    destruct (IH s Es) as (a & b & -> & Ha & Hb).
    exists (String d a), b. simpl. rewrite Ha, Ec. auto.
Qed.

Lemma includes_lower_spec (s t : string) :
  includes (toLowerCase s) (toLowerCase t) = true <-> contains_ignoring_case s t.
Proof.
  rewrite includes_spec. split.
  - intros (pre & post & E).
    destruct (toLowerCase_split _ _ _ E) as (a & r & -> & Ha & Hr).
    destruct (toLowerCase_split _ _ _ Hr) as (m & b & -> & Hm & Hb).
    exists a, m, b. split; [reflexivity | exact Hm].
  - intros (pre & mid & post & -> & Hm).
    exists (toLowerCase pre), (toLowerCase post).
    rewrite !toLowerCase_app. unfold same_ignoring_case in Hm. now rewrite Hm.
Qed.

(** The debounced term is stored lower-cased by both of its writers. *)
Lemma debounce_fire_lowercased (st : State) :
  toLowerCase (debouncedSearch (debounce_fire st)) = debouncedSearch (debounce_fire st).
Proof. apply toLowerCase_idem. Qed.

Lemma clear_click_lowercased (st : State) :
  toLowerCase (debouncedSearch (clear_click st)) = debouncedSearch (clear_click st).
Proof. reflexivity. Qed.

Lemma filter_all {A : Type} (f : A -> bool) (l : list A) :
  (forall x, f x = true) -> List.filter f l = l.
Proof.
  intros H. induction l as [|x l IH]; simpl; [reflexivity|].
  now rewrite H, IH.
Qed.

Lemma filter_sublist {A : Type} (f : A -> bool) (l : list A) :
  sublist (List.filter f l) l.
Proof.
  induction l as [|x l IH]; simpl; [constructor|].
  destruct (f x); now constructor.
Qed.

(** C2 at its own example: the term "to" occurs in "octocat" (at index 2),
    so the derived list for the logins octocat, torvalds, mojombo holds
    octocat and torvalds, not torvalds alone. *)
Lemma filteredProfiles_to_keeps_octocat :
  map login sample_users = ["octocat"; "torvalds"; "mojombo"] /\
  debouncedSearch (showing sample_users "to") = "to" /\
  map login (filteredProfiles (showing sample_users "to")) = ["octocat"; "torvalds"] /\
  map login (filteredProfiles (showing sample_users "to")) <> ["torvalds"].
Proof. repeat split. vm_compute. discriminate. Qed.

(** C2, amended.  With the debounced term as the component stores it
    (lower-cased), the derived list is the working list filtered, in
    order, by "the login contains the term as a substring up to case"; the
    empty term keeps the whole list.  For the logins octocat, torvalds,
    mojombo the term "to" keeps octocat and torvalds, and the empty term
    keeps all three in order. *)
Theorem filteredProfiles_spec (st : State) :
  toLowerCase (debouncedSearch st) = debouncedSearch st ->
  (exists keep : User -> bool,
     filteredProfiles st = List.filter keep (profile st) /\
     forall u, keep u = true <->
               contains_ignoring_case (login u) (debouncedSearch st)) /\
  sublist (filteredProfiles st) (profile st) /\
  (debouncedSearch st = "" -> filteredProfiles st = profile st) /\
  (forall users, map login users = ["octocat"; "torvalds"; "mojombo"] ->
     map login (filteredProfiles (showing users "to")) = ["octocat"; "torvalds"] /\
     filteredProfiles (showing users "") = users).
Proof.
  intros Hlow. split; [|split; [|split]].
  - exists (fun p => includes (toLowerCase (login p)) (debouncedSearch st)).
    split; [reflexivity|]. intros u.
    rewrite <- Hlow at 1. apply includes_lower_spec.
  - apply filter_sublist.
  - intros E. unfold filteredProfiles. rewrite E.
    apply filter_all. intros u. apply includes_empty.
  - intros users H.
    destruct users as [|u1 [|u2 [|u3 [|u4 us]]]]; try discriminate.
    injection H as H1 H2 H3. split.
    + unfold filteredProfiles, showing. cbn [profile debouncedSearch setDebouncedSearch setProfile List.filter].
      rewrite H1, H2, H3.
      change (includes (toLowerCase "octocat") "to") with true.
      change (includes (toLowerCase "torvalds") "to") with true.
      change (includes (toLowerCase "mojombo") "to") with false.
      cbn [map]. now rewrite H1, H2.
    + unfold filteredProfiles, showing. cbn [profile debouncedSearch setDebouncedSearch setProfile].
      apply filter_all. intros u. apply includes_empty.
Qed.

Lemma filteredProfiles_spec_witness :
  sublist (filteredProfiles (debounce_fire (setSearchInput "  TOR " (showing sample_users ""))))
          sample_users /\
  map login (filteredProfiles (debounce_fire (setSearchInput "  TOR " (showing sample_users ""))))
  = ["torvalds"].
Proof.
  split.
  - apply (filteredProfiles_spec
             (debounce_fire (setSearchInput "  TOR " (showing sample_users "")))).
    vm_compute. reflexivity.
  - vm_compute. reflexivity.
Defined.

(** ** The list fetcher *)

Lemma resume_success (append : bool) (data : list User) (st : State) :
  generateProfile_resume append (RespOk data) st =
  generateProfile_finally (fst (generateProfile_try append (RespOk data) st)).
Proof. reflexivity. Qed.

(** C5. A successful append of a response of M users to a working list of
    N users leaves N+M users: the N earlier ones first, unchanged and in
    their order, then the M new ones in the order of the response. *)
Theorem append_success_extends (st : State) (data : list User) :
  let st' := generateProfile_resume true (RespOk data) st in
  profile st' = profile st ++ data /\
  length (profile st') = (length (profile st) + length data)%nat /\
  take (length (profile st)) (profile st') = profile st /\
  drop (length (profile st)) (profile st') = data.
Proof.
  intros st'.
  assert (E : profile st' = profile st ++ data).
  { unfold st', generateProfile_resume. simpl. now destruct (last data). }
  rewrite E. split; [reflexivity|]. split; [apply length_app|].
  split; [apply take_app_length | apply drop_app_length].
Qed.

(** C8. A successful list fetch with a non-empty response sets the cursor
    to the id of the response's last element plus 1; with an empty
    response it leaves the cursor as it was. *)
Theorem success_moves_cursor (append : bool) (st : State) (data : list User) :
  let st' := generateProfile_resume append (RespOk data) st in
  (forall u, last data = Some u -> sinceCursor st' = Some (id u + 1)) /\
  (data = [] -> sinceCursor st' = sinceCursor st).
Proof.
  intros st'. split.
  - intros u Hu. unfold st', generateProfile_resume. simpl. now rewrite Hu.
  - intros ->. reflexivity.
Qed.

Lemma success_moves_cursor_witness :
  sinceCursor (generateProfile_resume true (RespOk sample_users) initial) = Some 2 /\
  sinceCursor (generateProfile_resume false (RespOk [])
                 (setSinceCursor (Some 77) initial)) = Some 77.
Proof.
  split.
  - destruct (success_moves_cursor true initial sample_users) as (Hlast & _).
    apply (Hlast (mkUser "mojombo" 1 "" "" "")). reflexivity.
  - destruct (success_moves_cursor false (setSinceCursor (Some 77) initial) [])
      as (_ & Hnil).
    apply Hnil. reflexivity.
Defined.

Lemma catch_records (append : bool) (err : JSError) (st : State) :
  String.eqb (err_name err) "AbortError" = false ->
  let st' := generateProfile_finally (generateProfile_catch append err st) in
  error st' = (if nonempty (err_message err) then err_message err
               else "Failed to load profiles.") /\
  profile st' = (if append then profile st else []).
Proof.
  intros Hname. unfold generateProfile_catch. rewrite Hname. simpl. auto.
Qed.

(** C4. When a list fetch fails (a response that is not [ok], or a
    rejection that is not a cancellation) a non-empty error message is
    recorded: the API error text with status and status text, or the
    message of the thrown error.  A failed replace load leaves the working
    list empty; a failed append load leaves the working list as it was. *)
Theorem failure_records_error (append : bool) (o : Outcome) (st : State) :
  failed o = true ->
  let st' := generateProfile_resume append o st in
  error st' <> "" /\
  (forall status statusText, o = RespNotOk status statusText ->
     error st' = "GitHub API error: " +:+ show_Z status +:+ " " +:+ statusText) /\
  (forall err, o = Rejected err -> err_message err <> "" ->
     error st' = err_message err) /\
  profile st' = (if append then profile st else []).
Proof.
  intros Hf st'. destruct o as [data|status statusText|err]; [discriminate| |].
  - unfold st', generateProfile_resume. simpl.
    split; [discriminate|]. split; [|split].
    + intros s t E. now injection E as <- <-.
    + intros err E. discriminate.
    + reflexivity.
  - simpl in Hf. apply negb_true_iff in Hf.
    destruct (catch_records append err st Hf) as [He Hp].
    change (generateProfile_finally (generateProfile_catch append err st)) with st' in He, Hp.
    split; [|split; [|split]].
    + rewrite He. destruct (err_message err); simpl; discriminate.
    + intros s t E. discriminate.
    + intros err' E Hm. injection E as <-. rewrite He.
      destruct (err_message err); [contradiction | reflexivity].
    + exact Hp.
Qed.

Lemma failure_records_error_witness :
  error (generateProfile_resume false (RespNotOk 403 "rate limit exceeded")
           (setProfile (fun _ => sample_users) initial))
    = "GitHub API error: 403 rate limit exceeded" /\
  profile (generateProfile_resume false (RespNotOk 403 "rate limit exceeded")
             (setProfile (fun _ => sample_users) initial)) = [] /\
  profile (generateProfile_resume true (Rejected (mkError "TypeError" "Failed to fetch"))
             (setProfile (fun _ => sample_users) initial)) = sample_users.
Proof.
  split; [|split].
  - destruct (failure_records_error false (RespNotOk 403 "rate limit exceeded")
                (setProfile (fun _ => sample_users) initial) eq_refl)
      as (_ & Htext & _).
    apply (Htext 403 "rate limit exceeded"). reflexivity.
  - apply (failure_records_error false (RespNotOk 403 "rate limit exceeded")
             (setProfile (fun _ => sample_users) initial) eq_refl).
  - apply (failure_records_error true (Rejected (mkError "TypeError" "Failed to fetch"))
             (setProfile (fun _ => sample_users) initial) eq_refl).
Defined.

(** *** Superseded requests *)

(** What a cancelled call does keep: the working list, the error string,
    the cursor, the details and the message. *)
Lemma cancelled_keeps_data (append : bool) (err : JSError) (st : State) :
  err_name err = "AbortError" ->
  let st' := generateProfile_resume append (Rejected err) st in
  profile st' = profile st /\ error st' = error st /\
  sinceCursor st' = sinceCursor st /\ detailsMap st' = detailsMap st /\
  message st' = message st.
Proof.
  intros Hname. unfold generateProfile_resume, generateProfile_catch. simpl.
  rewrite Hname. simpl. auto 6.
Qed.

(** What it does not keep: its [finally] block runs all the same. *)
Lemma cancelled_runs_finally (append : bool) (err : JSError) (st : State) :
  err_name err = "AbortError" ->
  generateProfile_resume append (Rejected err) st = generateProfile_finally st.
Proof.
  intros Hname. unfold generateProfile_resume, generateProfile_catch. simpl.
  now rewrite Hname.
Qed.

(** In a run, the request of an aborted controller never touches the list. *)
Lemma superseded_response_not_applied (c : Controller) (o : Outcome) (w w' : World) :
  was_aborted c w = true ->
  exec (Settle c o) w = Some w' ->
  profile (ui w') = profile (ui w).
Proof.
  intros Hab. simpl. destruct (List.find (awaits c) (inflight w)) as [p|]; [|discriminate].
  rewrite Hab. destruct o as [data|status text|err]; simpl; try discriminate.
  destruct (String.eqb_spec (err_name err) "AbortError") as [Hname|]; [|discriminate].
  intros E. injection E as <-. simpl.
  now apply cancelled_keeps_data.
Qed.

(** C1, on the code.  The first load is cancelled by the second.  When its
    rejection is delivered the working list and the error string stay as
    they are, but the call's [finally] block runs: it clears [loadingMore],
    which the second call had set, and it empties [abortRef], which held
    the second call's controller, while the second request is still
    awaited. *)
Theorem superseded_call_resets_flags_and_handle :
  exists w2 w3 : World,
    run superseding mount = Some w2 /\
    was_aborted 0%nat w2 = true /\ was_aborted 1%nat w2 = false /\
    exec (Settle 0%nat (Rejected abort_error)) w2 = Some w3 /\
    map (fun p => rq_signal (pd_request p)) (inflight w3) = [1%nat] /\
    profile (ui w3) = profile (ui w2) /\ error (ui w3) = error (ui w2) /\
    loadingMore (ui w2) = true /\ loadingMore (ui w3) = false /\
    abortRef (ui w2) = Some 1%nat /\ abortRef (ui w3) = None /\
    ui w3 <> ui w2.
Proof.
  eexists. eexists.
  split; [vm_compute; reflexivity|].
  split; [reflexivity|]. split; [reflexivity|].
  split; [vm_compute; reflexivity|].
  repeat (split; [reflexivity|]).
  intros E. apply (f_equal loadingMore) in E. discriminate.
Qed.

(** What follows from the emptied handle: a third call finds no controller
    to abort, so the second request stays live, and its response is applied
    after the third one's. *)
Lemma lost_handle_lets_stale_response_in :
  exists w : World,
    run (superseding ++
         [ Settle 0%nat (Rejected abort_error);
           Call (button_count "") false 99;
           Settle 2%nat (RespOk page_c);
           Settle 1%nat (RespOk page_b) ]) mount = Some w /\
    was_aborted 1%nat w = false /\
    profile (ui w) = page_c ++ page_b.
Proof. eexists. split; [vm_compute; reflexivity|]. split; reflexivity. Qed.

(** ** The detail fetcher *)

Lemma success_stores_timestamp (l : string) (obj : UserObj) (t : Z) (st : State) :
  exists d, detailsMap (fetchUserDetails_resume l (DetOk obj t) st) !! l = Some d /\
            fetchedAt d = Some t /\ det_loading d = false /\ det_error d = false.
Proof.
  eexists. split; [apply lookup_insert_eq|]. simpl. auto.
Qed.

(** C7. A failed detail fetch for a login marks that login's entry as
    errored and nothing else: every other login's entry, the working list,
    the cursor and the error string are as before. *)
Theorem detail_failure_is_local (l : string) (o : DetailOutcome) (st : State) :
  detail_failed o = true ->
  let st' := fetchUserDetails_resume l o st in
  detailsMap st' !! l = Some DFailed /\ det_error DFailed = true /\
  (forall l', l' <> l -> detailsMap st' !! l' = detailsMap st !! l') /\
  delete l (detailsMap st') = delete l (detailsMap st) /\
  profile st' = profile st /\ sinceCursor st' = sinceCursor st /\
  error st' = error st.
Proof.
  intros Hf st'.
  assert (E : detailsMap st' = <[l := DFailed]> (detailsMap st)).
  { unfold st'. destruct o; [discriminate | reflexivity | reflexivity]. }
  rewrite E. split; [apply lookup_insert_eq|]. split; [reflexivity|].
  split; [intros l' Hne; now apply lookup_insert_ne|].
  split; [apply delete_insert_eq|].
  unfold st'. destruct o; [discriminate | auto | auto].
Qed.

Lemma detail_failure_is_local_witness :
  detailsMap (fetchUserDetails_resume "torvalds" (DetNotOk 403)
                (one_row "octocat" DLoading)) !! "torvalds" = Some DFailed /\
  detailsMap (fetchUserDetails_resume "torvalds" (DetNotOk 403)
                (one_row "octocat" DLoading)) !! "octocat" = Some DLoading /\
  profile (fetchUserDetails_resume "torvalds" (DetNotOk 403)
             (one_row "octocat" DLoading)) = sample_users.
Proof.
  destruct (detail_failure_is_local "torvalds" (DetNotOk 403)
              (one_row "octocat" DLoading) eq_refl)
    as (Hrow & _ & Hothers & _ & Hlist & _).
  split; [exact Hrow|]. split; [|exact Hlist].
  rewrite (Hothers "octocat"); [|discriminate]. apply lookup_insert_eq.
Defined.

(** C6. Let the entry of a login be the one a successful fetch stored at
    time [t] (the login is not the empty string: for that one the fetcher
    returns before any request).  A call at a time less than 5 minutes
    after [t] returns at once: no request, and the state, so the entry, is
    unchanged.  A call at 5 minutes after [t] or later marks the entry as
    loading and requests the login again. *)
Theorem fetchUserDetails_freshness (l : string) (obj : UserObj) (t now : Z)
    (st0 st : State) :
  l <> "" ->
  detailsMap st !! l = detailsMap (fetchUserDetails_resume l (DetOk obj t) st0) !! l ->
  (now - t < FRESH_MS -> fetchUserDetails l now st = (st, None)) /\
  (FRESH_MS <= now - t ->
     fetchUserDetails l now st =
       (setDetailsMap (fun d => <[l := DLoading]> d) st, Some l)).
Proof.
  intros Hl Hentry.
  assert (E : detailsMap st !! l =
              Some (DReady (obj_followers obj) (obj_following obj)
                      (default "" (obj_bio obj)) (default "" (obj_location obj))
                      (default "" (obj_company obj)) t)).
  { rewrite Hentry. apply lookup_insert_eq. }
  unfold fetchUserDetails.
  destruct l as [|c l]; [contradiction|]. cbn [nonempty negb].
  rewrite E. cbn [fetchedAt from_option Datatypes.id].
  split; intros H.
  - apply Z.ltb_lt in H. now rewrite H.
  - apply Z.ltb_ge in H. now rewrite H.
Qed.

Lemma fetchUserDetails_freshness_witness :
  let st0 := fst (fetchUserDetails "octocat" 1699999999000 initial) in
  let st := fetchUserDetails_resume "octocat" (DetOk octocat_obj 1700000000000) st0 in
  fetchUserDetails "octocat" 1700000299999 st = (st, None) /\
  snd (fetchUserDetails "octocat" 1700000300000 st) = Some "octocat".
Proof.
  intros st0 st.
  destruct (fetchUserDetails_freshness "octocat" octocat_obj 1700000000000
              1700000299999 st0 st) as (Hfresh & _);
    [discriminate | reflexivity |].
  destruct (fetchUserDetails_freshness "octocat" octocat_obj 1700000000000
              1700000300000 st0 st) as (_ & Hstale);
    [discriminate | reflexivity |].
  split.
  - apply Hfresh. vm_compute. reflexivity.
  - rewrite Hstale; [reflexivity | vm_compute; discriminate].
Defined.

(** C10 as stated, at a clock reading below 5 minutes: the entry is in
    error state and has no timestamp, the guard reads the missing timestamp
    as 0, finds [Date.now() - 0] below the window, and the call returns
    without a request. *)
Lemma failed_row_not_retried_near_epoch :
  detailsMap (one_row "octocat" DFailed) !! "octocat" = Some DFailed /\
  det_error DFailed = true /\ fetchedAt DFailed = None /\
  fetchUserDetails "octocat" 1000 (one_row "octocat" DFailed)
    = (one_row "octocat" DFailed, None).
Proof.
  split; [apply lookup_insert_eq|]. split; [reflexivity|]. split; [reflexivity|].
  unfold fetchUserDetails. cbn [nonempty negb].
  replace (detailsMap (one_row "octocat" DFailed) !! "octocat") with (Some DFailed)
    by (symmetry; apply lookup_insert_eq).
  reflexivity.
Qed.

(** C10, amended.  An entry in error state or in loading state has no
    timestamp; whenever the clock reads at least 5 minutes (300000 ms)
    since the epoch, a call for that login marks the entry as loading and
    issues a request. *)
Theorem unfinished_row_is_retried (l : string) (d : Detail) (now : Z) (st : State) :
  l <> "" ->
  detailsMap st !! l = Some d ->
  det_error d = true \/ det_loading d = true ->
  FRESH_MS <= now ->
  fetchedAt d = None /\
  fetchUserDetails l now st =
    (setDetailsMap (fun m => <[l := DLoading]> m) st, Some l).
Proof.
  intros Hl Hd Hstate Hnow.
  assert (Ht : fetchedAt d = None).
  { destruct d; [reflexivity | destruct Hstate; discriminate | reflexivity]. }
  split; [exact Ht|].
  unfold fetchUserDetails.
  destruct l as [|c l]; [contradiction|]. cbn [nonempty negb].
  rewrite Hd, Ht. cbn [from_option].
  replace (now - 0) with now by lia.
  apply Z.ltb_ge in Hnow. now rewrite Hnow.
Qed.

Lemma unfinished_row_is_retried_witness :
  snd (fetchUserDetails "octocat" 1700000000000 (one_row "octocat" DFailed))
    = Some "octocat" /\
  snd (fetchUserDetails "octocat" 1700000000000 (one_row "octocat" DLoading))
    = Some "octocat".
Proof.
  split.
  - destruct (unfinished_row_is_retried "octocat" DFailed 1700000000000
                (one_row "octocat" DFailed)) as (_ & Hcall).
    + discriminate.
    + apply lookup_insert_eq.
    + left. reflexivity.
    + vm_compute. discriminate.
    + rewrite Hcall. reflexivity.
  - destruct (unfinished_row_is_retried "octocat" DLoading 1700000000000
                (one_row "octocat" DLoading)) as (_ & Hcall).
    + discriminate.
    + apply lookup_insert_eq.
    + right. reflexivity.
    + vm_compute. discriminate.
    + rewrite Hcall. reflexivity.
Defined.

(** * Further properties of the component *)

(** ** The count on its way to the request *)

Lemma safeCount_of_Z (k : Z) :
  1 <= k <= 100 -> safeCount (RawNum (of_Z k)) = of_Z k.
Proof.
  intros [Hlo Hhi].
  assert (H := safeCount_cases (RawNum (of_Z k))). cbn [Number of_Z] in H.
  destruct H as (_ & _ & _ & Hmid).
  rewrite Hmid.
  - now rewrite Qfloor_Z.
  - change 1%Q with (inject_Z 1). now rewrite <- Zle_Qle.
  - change 100%Q with (inject_Z 100). now rewrite <- Zle_Qle.
Qed.

(** X1. Normalizing twice is normalizing once: the buttons pass
    [safeCount(...)] to [generateProfile], which applies [safeCount] again,
    and the second application changes nothing. *)
Theorem safeCount_idempotent (raw : Raw) :
  safeCount (RawNum (safeCount raw)) = safeCount raw.
Proof.
  destruct (safeCount_range raw) as (k & -> & Hk).
  now apply safeCount_of_Z.
Qed.

(** X2. Whatever the numeric input holds, a click on Load or Load More
    adds one request, and its [per_page] is the normalized input, an
    integer between 1 and 100. *)
Theorem click_request_per_page (numberOfProfile : string) (append : bool)
    (rnd : Z) (w : World) :
  exists (since : Z) (k : Z),
    requests (generateProfile (button_count numberOfProfile) append rnd w)
      = requests w ++ [mkRequest since (of_Z k) (next_controller w)] /\
    of_Z k = safeCount (count_input numberOfProfile) /\
    1 <= k <= 100.
Proof.
  destruct (safeCount_range (count_input numberOfProfile)) as (k & Ek & Hk).
  eexists. exists k. split; [|split; [now symmetry | exact Hk]].
  unfold requests, generateProfile. cbn [inflight].
  rewrite map_app. cbn [map pd_request]. f_equal. f_equal. f_equal.
  unfold button_count. rewrite Ek. now apply safeCount_of_Z.
Qed.

(** ** The cursor between two loads *)

Lemma call_since (countPages : Raw) (append : bool) (rnd : Z) (w : World) :
  map rq_since (requests (generateProfile countPages append rnd w))
  = map rq_since (requests w) ++
    [match sinceCursor (ui w) with
     | Some c => if append && negb (c =? 0) then c else rnd
     | None => rnd
     end].
Proof.
  unfold requests, generateProfile. cbn [inflight].
  rewrite !map_app. cbn [map pd_request rq_since]. f_equal. f_equal.
  now destruct append.
Qed.

(** X3. Load More after a successful load asks for the users after the
    last one received: when a response ends with a user whose id is not -1,
    an append call made on the resulting state requests
    [since = that id + 1], whereas a replace call requests the random
    seed. *)
Theorem append_continues_after_last (append0 : bool) (data : list User) (u : User)
    (countPages : Raw) (rnd : Z) (w : World) :
  last data = Some u ->
  id u + 1 <> 0 ->
  let w1 := mkWorld (generateProfile_resume append0 (RespOk data) (ui w))
                    (aborted w) (inflight w) (next_controller w) in
  map rq_since (requests (generateProfile countPages true rnd w1))
    = map rq_since (requests w) ++ [id u + 1] /\
  map rq_since (requests (generateProfile countPages false rnd w1))
    = map rq_since (requests w) ++ [rnd].
Proof.
  intros Hlast Hnz w1.
  assert (Hc : sinceCursor (ui w1) = Some (id u + 1)).
  { unfold w1, generateProfile_resume. simpl. now rewrite Hlast. }
  rewrite !call_since, Hc. cbn [andb].
  apply Z.eqb_neq in Hnz. rewrite Hnz. split; reflexivity.
Qed.

Lemma append_continues_after_last_witness :
  map rq_since (requests (generateProfile (button_count "5") true 4711
    (mkWorld (generateProfile_resume false (RespOk sample_users) initial) [] [] 1%nat)))
  = [2].
Proof.
  apply (append_continues_after_last false sample_users (mkUser "mojombo" 1 "" "" "")
           (button_count "5") 4711 (mkWorld initial [] [] 1%nat)).
  - reflexivity.
  - discriminate.
Defined.

(** ** The list lane in runs *)

Lemma resume_handle_none (append : bool) (o : Outcome) (st : State) :
  abortRef (generateProfile_resume append o st) = None.
Proof.
  unfold generateProfile_resume.
  destruct (generateProfile_try append o st) as [st1 [err|]]; reflexivity.
Qed.

(** X4. However a list request settles (response, failure or
    cancellation), the call ends with both loading flags off and the
    handle empty. *)
Theorem resume_always_idle (append : bool) (o : Outcome) (st : State) :
  let st' := generateProfile_resume append o st in
  loading st' = false /\ loadingMore st' = false /\ abortRef st' = None.
Proof.
  unfold generateProfile_resume.
  destruct (generateProfile_try append o st) as [st1 [err|]]; simpl; auto.
Qed.


Lemma controllers_filter (c : Controller) (l : list Pending) :
  map (fun p => rq_signal (pd_request p)) (List.filter (fun p => negb (awaits c p)) l)
  = List.filter (fun c' => negb (Nat.eqb c' c)) (map (fun p => rq_signal (pd_request p)) l).
Proof.
  induction l as [|p l IH]; [reflexivity|].
  cbn [List.filter map]. unfold awaits at 1.
  destruct (Nat.eqb (rq_signal (pd_request p)) c); cbn [negb map]; now rewrite IH.
Qed.

(** X20. A cancelled request settles silently: in a run, the request of
    an aborted controller can only be delivered as an [AbortError], and
    its delivery leaves the working list, the error string, the cursor,
    the details and the message as they were, and ends that call. *)
Theorem cancelled_settle_is_silent (c : Controller) (o : Outcome) (w w' : World) :
  was_aborted c w = true ->
  exec (Settle c o) w = Some w' ->
  is_abort o = true /\
  profile (ui w') = profile (ui w) /\ error (ui w') = error (ui w) /\
  sinceCursor (ui w') = sinceCursor (ui w) /\
  detailsMap (ui w') = detailsMap (ui w) /\ message (ui w') = message (ui w) /\
  ~ In c (controllers w').
Proof.
  intros Hab. cbn [exec].
  destruct (List.find (awaits c) (inflight w)) as [p|]; [|discriminate].
  rewrite Hab. destruct (is_abort o) eqn:Ho; [|discriminate]. cbn [Bool.eqb].
  intros E. injection E as <-. split; [reflexivity|].
  destruct o as [data|status text|err]; try discriminate. cbn [is_abort] in Ho.
  apply String.eqb_eq in Ho.
  destruct (cancelled_keeps_data (pd_append p) err (ui w) Ho) as (H1 & H2 & H3 & H4 & H5).
  cbn [ui]. repeat (split; [assumption|]).
  unfold controllers. cbn [inflight]. rewrite controllers_filter.
  intros Hin. apply List.filter_In in Hin as [_ Hc].
  now rewrite Nat.eqb_refl in Hc.
Qed.

Lemma cancelled_settle_is_silent_witness :
  exists w', exec (Settle 0%nat (Rejected abort_error)) world_superseded = Some w' /\
             profile (ui w') = profile (ui world_superseded).
Proof.
  eexists. split; [vm_compute; reflexivity|].
  apply (cancelled_settle_is_silent 0%nat (Rejected abort_error) world_superseded).
  - reflexivity.
  - vm_compute. reflexivity.
Defined.

Lemma run_app (es1 es2 : list Event) (w : World) :
  run (es1 ++ es2) w =
  match run es1 w with Some w' => run es2 w' | None => None end.
Proof.
  revert w. induction es1 as [|e es1 IH]; intros w; [reflexivity|].
  cbn [run app]. destruct (exec e w); [apply IH | reflexivity].
Qed.

Lemma was_aborted_below (c : Controller) (l : list Controller) :
  List.Forall (fun c' => (c' < c)%nat) l -> existsb (Nat.eqb c) l = false.
Proof.
  induction 1 as [|c' l Hlt _ IH]; [reflexivity|].
  cbn [existsb]. rewrite IH, orb_false_r. apply Nat.eqb_neq. lia.
Qed.

Lemma Inv_mount : Inv mount.
Proof.
  split; cbn.
  - constructor.
  - constructor.
  - constructor.
  - discriminate.
Qed.

Lemma Inv_call (countPages : Raw) (append : bool) (rnd : Z) (w : World) :
  Inv w -> Inv (generateProfile countPages append rnd w).
Proof.
  intros [Hnd Hin Hab Hh].
  assert (Hold : List.Forall (fun c => (c < S (next_controller w))%nat)
                   (match abortRef (ui w) with
                    | Some c => c :: aborted w
                    | None => aborted w
                    end)).
  { assert (Hab' : List.Forall (fun c => (c < S (next_controller w))%nat) (aborted w)).
    { eapply List.Forall_impl; [|exact Hab]. cbn. lia. }
    destruct (abortRef (ui w)) as [c|] eqn:E; [|exact Hab'].
    constructor; [|exact Hab']. destruct (Hh c eq_refl) as (_ & _ & <-). lia. }
  assert (Hnew : List.Forall (fun c => (c < next_controller w)%nat)
                   (match abortRef (ui w) with
                    | Some c => c :: aborted w
                    | None => aborted w
                    end)).
  { destruct (abortRef (ui w)) as [c|] eqn:E; [|exact Hab].
    constructor; [|exact Hab]. destruct (Hh c eq_refl) as (_ & _ & <-). lia. }
  split.
  - unfold controllers, generateProfile. cbn [inflight]. rewrite map_app.
    cbn [map pd_request rq_signal].
    apply NoDup_app. split; [exact Hnd|]. split; [|apply NoDup_singleton].
    intros c Hc Hc'. apply list_elem_of_In in Hc. apply list_elem_of_In in Hc'.
    destruct Hc' as [<-|[]].
    rewrite List.Forall_forall in Hin. specialize (Hin _ Hc). cbn in Hin. lia.
  - unfold controllers, generateProfile. cbn [inflight next_controller].
    rewrite map_app. cbn [map pd_request rq_signal].
    apply List.Forall_app. split.
    + eapply List.Forall_impl; [|exact Hin]. cbn. lia.
    + repeat constructor.
  - unfold generateProfile. cbn [aborted next_controller]. exact Hold.
  - intros c Hc.
    assert (E : c = next_controller w).
    { unfold generateProfile in Hc. destruct append; cbn in Hc; congruence. }
    subst c. split; [|split].
    + unfold controllers, generateProfile. cbn [inflight]. rewrite map_app.
      apply List.in_or_app. right. left. reflexivity.
    + unfold was_aborted, generateProfile. cbn [aborted].
      now apply was_aborted_below.
    + reflexivity.
Qed.

Lemma Inv_exec (e : Event) (w w' : World) :
  Inv w -> exec e w = Some w' -> Inv w'.
Proof.
  intros HI. destruct e as [countPages append rnd|c o]; cbn [exec].
  - destruct ((1 <=? rnd) && (rnd <=? 10000)); [|discriminate].
    intros E. injection E as <-. now apply Inv_call.
  - destruct (List.find (awaits c) (inflight w)) as [p|]; [|discriminate].
    destruct (Bool.eqb (is_abort o) (was_aborted c w)); [|discriminate].
    intros E. injection E as <-. destruct HI as [Hnd Hin Hab Hh]. split.
    + unfold controllers. cbn [inflight]. rewrite controllers_filter.
      eapply sublist_NoDup; [exact Hnd | apply filter_sublist].
    + unfold controllers. cbn [inflight next_controller]. rewrite controllers_filter.
      rewrite List.Forall_forall in *. intros x Hx.
      apply List.filter_In in Hx as [Hx _]. now apply Hin.
    + exact Hab.
    + intros c'. cbn [ui]. rewrite resume_handle_none. discriminate.
Qed.

Lemma Inv_run (es : list Event) (w w' : World) :
  Inv w -> run es w = Some w' -> Inv w'.
Proof.
  revert w. induction es as [|e es IH]; intros w HI; cbn [run].
  - intros E. now injection E as <-.
  - destruct (exec e w) as [w1|] eqn:E; [|discriminate].
    apply IH. eapply Inv_exec; eassumption.
Qed.

(** X6. In every run from the mounted component, the handle, when it is
    set, holds the controller created last; that controller's call is
    still suspended and has not been aborted. *)
Theorem handle_is_newest_live (es : list Event) (w : World) (c : Controller) :
  run es mount = Some w ->
  abortRef (ui w) = Some c ->
  In c (controllers w) /\ was_aborted c w = false /\ S c = next_controller w.
Proof.
  intros Hrun. apply (inv_handle w). eapply Inv_run; [apply Inv_mount | exact Hrun].
Qed.

Lemma handle_is_newest_live_witness :
  In 1%nat (controllers world_superseded) /\
  was_aborted 1%nat world_superseded = false /\
  2%nat = next_controller world_superseded.
Proof.
  apply (handle_is_newest_live superseding world_superseded 1%nat); reflexivity.
Defined.

Lemma find_newest (c : Controller) (l : list Pending) (p : Pending) :
  List.Forall (fun c' => (c' < c)%nat) (map (fun q => rq_signal (pd_request q)) l) ->
  awaits c p = true ->
  List.find (awaits c) (l ++ [p]) = Some p /\
  List.filter (fun q => negb (awaits c q)) (l ++ [p]) = l.
Proof.
  intros Hl Hp. induction l as [|q l IH]; cbn [app List.find List.filter map] in *.
  - rewrite Hp. auto.
  - inversion Hl as [|? ? Hq Hl']; subst.
    assert (E : awaits c q = false).
    { unfold awaits. apply Nat.eqb_neq. lia. }
    rewrite E. cbn [negb]. destruct (IH Hl') as [-> ->]. auto.
Qed.

(** X7. A load that nothing interferes with runs to completion: in any run
    from the mounted component, a call followed by a successful response
    to its own request is always possible, and it ends with the working
    list replaced by (or extended with) the response, the error string
    empty, both loading flags off, and the other suspended calls as they
    were. *)
Theorem undisturbed_load_completes (es : list Event) (w : World)
    (countPages : Raw) (append : bool) (rnd : Z) (data : list User) :
  run es mount = Some w ->
  1 <= rnd <= 10000 ->
  exists w',
    run (es ++ [Call countPages append rnd;
                Settle (next_controller w) (RespOk data)]) mount = Some w' /\
    profile (ui w') = (if append then profile (ui w) ++ data else data) /\
    error (ui w') = "" /\
    loading (ui w') = false /\ loadingMore (ui w') = false /\
    inflight w' = inflight w.
Proof.
  intros Hrun [Hlo Hhi].
  assert (HI : Inv w) by (eapply Inv_run; [apply Inv_mount | exact Hrun]).
  set (w1 := generateProfile countPages append rnd w).
  assert (Hh : abortRef (ui w1) = Some (next_controller w)).
  { unfold w1, generateProfile. destruct append; reflexivity. }
  destruct (inv_handle w1 (Inv_call countPages append rnd w HI) _ Hh) as (_ & Hna & _).
  destruct (find_newest (next_controller w) (inflight w)
              (mkPending append
                 (mkRequest
                    (match sinceCursor (ui w1) with
                     | Some c => if append && negb (c =? 0) then c else rnd
                     | None => rnd
                     end) (safeCount countPages) (next_controller w))))
    as [Hfind Hfilter].
  { exact (inv_inflight w HI). }
  { unfold awaits. cbn. apply Nat.eqb_refl. }
  assert (Hin1 : inflight w1 = inflight w ++
            [mkPending append
               (mkRequest
                  (match sinceCursor (ui w1) with
                   | Some c => if append && negb (c =? 0) then c else rnd
                   | None => rnd
                   end) (safeCount countPages) (next_controller w))]).
  { unfold w1, generateProfile. cbn [inflight ui]. destruct append; reflexivity. }
  rewrite run_app, Hrun. cbn [run exec].
  apply Z.leb_le in Hlo. apply Z.leb_le in Hhi. rewrite Hlo, Hhi. cbn [andb].
  fold w1. rewrite Hin1, Hfind, Hfilter, Hna. cbn [is_abort Bool.eqb pd_append].
  eexists. split; [reflexivity|]. cbn [ui inflight].
  unfold w1, generateProfile, generateProfile_resume.
  destruct append; cbn; destruct (last data); cbn; auto 6.
Qed.

Lemma undisturbed_load_completes_witness :
  exists w',
    run (superseding ++ [Call (button_count "3") false 7;
                         Settle 2%nat (RespOk page_c)]) mount = Some w' /\
    profile (ui w') = page_c.
Proof.
  destruct (undisturbed_load_completes superseding world_superseded
              (button_count "3") false 7 page_c) as (w' & Hrun & Hp & _).
  - reflexivity.
  - lia.
  - exists w'. split; [exact Hrun | exact Hp].
Defined.

(** ** Searching *)

Lemma app_assoc_string (a b c : string) : (a +:+ b) +:+ c = a +:+ b +:+ c.
Proof.
  induction a as [|x a IH]; [reflexivity|].
  rewrite !app_String. now rewrite IH.
Qed.

Lemma includes_trans (s t' t : string) :
  includes s t' = true -> includes t' t = true -> includes s t = true.
Proof.
  rewrite !includes_spec. intros (a & b & ->) (c & d & ->).
  exists (a +:+ c), (d +:+ b). now rewrite !app_assoc_string.
Qed.

Lemma filter_sublist_impl {A : Type} (f g : A -> bool) (l : list A) :
  (forall x, f x = true -> g x = true) ->
  sublist (List.filter f l) (List.filter g l).
Proof.
  intros H. induction l as [|x l IH]; cbn [List.filter]; [constructor|].
  destruct (f x) eqn:Ef.
  - rewrite (H x Ef). now constructor.
  - destruct (g x); [now constructor | exact IH].
Qed.

(** X8. Typing more can only narrow the view: when the debounced term is
    replaced by one that contains it, the new derived list is a
    subsequence of the old one. *)
Theorem longer_term_narrows (st : State) (term' : string) :
  includes term' (debouncedSearch st) = true ->
  sublist (filteredProfiles (setDebouncedSearch term' st)) (filteredProfiles st).
Proof.
  intros H. unfold filteredProfiles. cbn [profile debouncedSearch setDebouncedSearch].
  apply filter_sublist_impl. intros u Hu. eapply includes_trans; eassumption.
Qed.

Lemma longer_term_narrows_witness :
  sublist (filteredProfiles (setDebouncedSearch "tor" (showing sample_users "to")))
          (filteredProfiles (showing sample_users "to")).
Proof.
  apply (longer_term_narrows (showing sample_users "to") "tor"). reflexivity.
Defined.

(** X9. Load More does not disturb the rows on screen: after a successful
    append the derived list is the derived list from before, followed by
    the new users that match the term. *)
Theorem append_keeps_visible_rows (st : State) (data : list User) :
  filteredProfiles (generateProfile_resume true (RespOk data) st)
  = filteredProfiles st ++
    List.filter (fun p => includes (toLowerCase (login p)) (debouncedSearch st)) data.
Proof.
  unfold filteredProfiles.
  assert (E : profile (generateProfile_resume true (RespOk data) st) = profile st ++ data).
  { unfold generateProfile_resume. simpl. now destruct (last data). }
  assert (D : debouncedSearch (generateProfile_resume true (RespOk data) st)
              = debouncedSearch st).
  { unfold generateProfile_resume. simpl. now destruct (last data). }
  rewrite E, D. apply List.filter_app.
Qed.

Lemma trimStart_blank (s : string) : blank s = true -> trimStart s = "".
Proof.
  induction s as [|c s IH]; [reflexivity|].
  cbn [blank trimStart]. intros H. apply andb_true_iff in H as [Hc Hs].
  rewrite Hc. now apply IH.
Qed.

(** X10. A search box holding only white space filters nothing: once the
    debounce timer fires, the derived list is the whole working list. *)
Theorem blank_search_shows_all (s : string) (st : State) :
  blank s = true ->
  filteredProfiles (debounce_fire (setSearchInput s st)) = profile st.
Proof.
  intros Hb. unfold filteredProfiles, debounce_fire.
  cbn [profile debouncedSearch searchInput setDebouncedSearch setSearchInput].
  unfold trim. rewrite (trimStart_blank s Hb).
  apply filter_all. intros u. apply includes_empty.
Qed.

Lemma blank_search_shows_all_witness :
  filteredProfiles (debounce_fire (setSearchInput "   " (showing sample_users "to")))
  = sample_users.
Proof.
  apply (blank_search_shows_all "   " (showing sample_users "to")). reflexivity.
Defined.

Lemma is_white_lower (c : ascii) : is_white (lower_char c) = is_white c.
Proof. destruct c as [[] [] [] [] [] [] [] []]; reflexivity. Qed.

Lemma trimStart_lower (s : string) :
  trimStart (toLowerCase s) = toLowerCase (trimStart s).
Proof.
  induction s as [|c s IH]; [reflexivity|].
  cbn [toLowerCase trimStart]. rewrite is_white_lower.
  destruct (is_white c); [exact IH | reflexivity].
Qed.

Lemma rev_app_lower (s acc : string) :
  toLowerCase (String.rev_app s acc)
  = String.rev_app (toLowerCase s) (toLowerCase acc).
Proof.
  revert acc. induction s as [|c s IH]; intros acc; [reflexivity|].
  cbn [String.rev_app toLowerCase]. now rewrite IH.
Qed.

Lemma rev_lower (s : string) :
  toLowerCase (String.rev s) = String.rev (toLowerCase s).
Proof. unfold String.rev. now rewrite rev_app_lower. Qed.

Lemma trim_lower (s : string) : trim (toLowerCase s) = toLowerCase (trim s).
Proof.
  unfold trim, trimEnd.
  now rewrite trimStart_lower, <- rev_lower, trimStart_lower, <- rev_lower.
Qed.

(** X11. The search ignores the case of what is typed: two inputs that
    differ only in the case of their letters give, once the debounce timer
    fires, the same debounced term and the same derived list. *)
Theorem search_input_case_blind (s1 s2 : string) (st : State) :
  same_ignoring_case s1 s2 ->
  debouncedSearch (debounce_fire (setSearchInput s1 st))
    = debouncedSearch (debounce_fire (setSearchInput s2 st)) /\
  filteredProfiles (debounce_fire (setSearchInput s1 st))
    = filteredProfiles (debounce_fire (setSearchInput s2 st)).
Proof.
  intros H. unfold same_ignoring_case in H.
  assert (E : toLowerCase (trim s1) = toLowerCase (trim s2)).
  { now rewrite <- !trim_lower, H. }
  unfold filteredProfiles, debounce_fire.
  cbn [profile debouncedSearch searchInput setDebouncedSearch setSearchInput].
  now rewrite E.
Qed.

Lemma search_input_case_blind_witness :
  filteredProfiles (debounce_fire (setSearchInput " TorV" (showing sample_users "")))
  = filteredProfiles (debounce_fire (setSearchInput " tORv" (showing sample_users ""))).
Proof.
  apply (search_input_case_blind " TorV" " tORv" (showing sample_users "")).
  reflexivity.
Defined.

(** X12. The Clear button shows the whole working list at once, without
    waiting for the debounce timer, and empties the search box. *)
Theorem clear_shows_all (st : State) :
  filteredProfiles (clear_click st) = profile st /\
  searchInput (clear_click st) = "" /\
  debounce_fire (clear_click st) = clear_click st.
Proof.
  split; [|split; reflexivity].
  unfold filteredProfiles, clear_click. cbn.
  apply filter_all. intros u. apply includes_empty.
Qed.

(** ** Rows and the detail fetcher *)

Lemma call_requests (l : string) (now : Z) (st : State) :
  l <> "" ->
  (match detailsMap st !! l with
   | Some d => now - default 0 (fetchedAt d) <? FRESH_MS
   | None => false
   end) = false ->
  fetchUserDetails l now st = (setDetailsMap (fun d => <[l := DLoading]> d) st, Some l).
Proof.
  intros Hl Hf. unfold fetchUserDetails.
  destruct l as [|c l]; [contradiction|]. cbn [nonempty negb]. now rewrite Hf.
Qed.



Lemma click_issues (value : User) (now : Z) (st st' : State) (r : string) :
  details_click value now st = (st', Some r) ->
  st' = setDetailsMap (fun d => <[login value := DLoading]> d) st.
Proof.
  unfold details_click.
  destruct (row_header (row_det st value)); try discriminate.
  unfold fetchUserDetails. destruct (negb (nonempty (login value))); [discriminate|].
  destruct (match detailsMap st !! login value with
            | Some d => now - default 0 (fetchedAt d) <? FRESH_MS
            | None => false
            end); [discriminate|].
  intros E. now injection E as <- _.
Qed.

(** X14. While a detail request is awaited the row cannot start another:
    after a click that issued a request, every further click on that row,
    at any time, does nothing. *)
Theorem loading_row_ignores_clicks (value : User) (now now' : Z) (st st' : State)
    (r : string) :
  details_click value now st = (st', Some r) ->
  details_click value now' st' = (st', None).
Proof.
  intros H. apply click_issues in H. subst st'.
  unfold details_click, row_det. cbn [detailsMap setDetailsMap].
  now rewrite lookup_insert_eq.
Qed.

Lemma loading_row_ignores_clicks_witness :
  details_click (mkUser "octocat" 583231 "" "" "") 1700000400000
    (fst (details_click (mkUser "octocat" 583231 "" "" "") 1700000000000 initial))
  = (fst (details_click (mkUser "octocat" 583231 "" "" "") 1700000000000 initial), None).
Proof.
  apply (loading_row_ignores_clicks (mkUser "octocat" 583231 "" "" "")
           1700000000000 1700000400000 initial _ "octocat").
  reflexivity.
Defined.

(** X15. Once details have arrived the row never offers the button again:
    it shows the two counts, and a click on it does nothing however much
    time has passed, so the refetch after the freshness window is not
    reachable from the row. *)
Theorem ready_row_has_no_button (value : User) (obj : UserObj) (t now : Z)
    (st : State) :
  let st' := fetchUserDetails_resume (login value) (DetOk obj t) st in
  row_header (row_det st' value) = Counts (obj_followers obj) (obj_following obj) /\
  row_error_note (row_det st' value) = false /\
  details_click value now st' = (st', None).
Proof.
  intros st'.
  assert (E : row_det st' value =
              Some (DReady (obj_followers obj) (obj_following obj)
                      (default "" (obj_bio obj)) (default "" (obj_location obj))
                      (default "" (obj_company obj)) t)).
  { unfold row_det, st'. apply lookup_insert_eq. }
  unfold details_click. rewrite E. repeat split.
Qed.

(** X16. A failed row can be retried from the row: after a failed detail
    fetch the row shows the button and the note "Could not load details.",
    and a click at a clock reading of 5 minutes or more since the epoch
    calls the endpoint for that login again. *)
Theorem failed_row_offers_retry (value : User) (o : DetailOutcome) (now : Z)
    (st : State) :
  login value <> "" ->
  detail_failed o = true ->
  FRESH_MS <= now ->
  let st' := fetchUserDetails_resume (login value) o st in
  row_header (row_det st' value) = LoadButton /\
  row_error_note (row_det st' value) = true /\
  snd (details_click value now st') = Some (login value).
Proof.
  intros Hl Hf Hnow st'.
  assert (E : row_det st' value = Some DFailed).
  { unfold row_det, st'. destruct o; [discriminate | |]; apply lookup_insert_eq. }
  unfold details_click. rewrite E. cbn [row_header det_loading det_error negb andb row_error_note].
  split; [reflexivity|]. split; [reflexivity|].
  unfold row_det in E. rewrite call_requests; [reflexivity | exact Hl |].
  rewrite E. cbn [fetchedAt from_option]. apply Z.ltb_ge. lia.
Qed.

Lemma failed_row_offers_retry_witness :
  snd (details_click (mkUser "octocat" 583231 "" "" "") 1700000000000
         (fetchUserDetails_resume "octocat" (DetNotOk 403) initial))
  = Some "octocat".
Proof.
  apply (failed_row_offers_retry (mkUser "octocat" 583231 "" "" "") (DetNotOk 403)
           1700000000000 initial).
  - discriminate.
  - reflexivity.
  - vm_compute. discriminate.
Defined.

(** X17. A successful detail fetch writes one entry and nothing else: the
    entry carries the counts as received (a missing count stays the dash
    placeholder), a missing bio, location or company as the empty string,
    and the time of arrival; every other entry, the working list, the
    cursor, the error string and the message are unchanged, and a missing
    or empty bio gives no bio line. *)
Theorem detail_success_is_local (l : string) (obj : UserObj) (t : Z) (st : State) :
  let st' := fetchUserDetails_resume l (DetOk obj t) st in
  detailsMap st' !! l =
    Some (DReady (obj_followers obj) (obj_following obj)
            (default "" (obj_bio obj)) (default "" (obj_location obj))
            (default "" (obj_company obj)) t) /\
  delete l (detailsMap st') = delete l (detailsMap st) /\
  profile st' = profile st /\ sinceCursor st' = sinceCursor st /\
  error st' = error st /\ message st' = message st /\
  row_bio (detailsMap st' !! l) =
    match obj_bio obj with
    | Some b => if nonempty b then Some b else None
    | None => None
    end.
Proof.
  intros st'. unfold st', fetchUserDetails_resume. cbn [detailsMap setDetailsMap].
  rewrite lookup_insert_eq, delete_insert_eq.
  repeat split. cbn [row_bio det_bio]. now destruct (obj_bio obj).
Qed.

(** ** The notice for an empty view *)

(** X18. The notice "No profiles match your search." is hidden from the
    moment a replace load is called, and a replace load that fails ends
    with both the notice and the error line on screen, whatever the list
    and the search term were. *)
Theorem failed_replace_shows_notice (countPages : Raw) (rnd : Z) (w : World)
    (o : Outcome) (st : State) :
  empty_notice (ui (generateProfile countPages false rnd w)) = false /\
  (failed o = true ->
   empty_notice (generateProfile_resume false o st) = true /\
   error_shown (generateProfile_resume false o st) = true).
Proof.
  split.
  - unfold empty_notice, generateProfile. cbn [ui loading setLoading negb].
    apply andb_false_r.
  - intros Hf.
    assert (H : profile (generateProfile_resume false o st) = [] /\
                loading (generateProfile_resume false o st) = false /\
                error_shown (generateProfile_resume false o st) = true).
    { destruct o as [data|status statusText|err]; [discriminate| |].
      - repeat split.
      - cbn [failed] in Hf. apply negb_true_iff in Hf.
        destruct (catch_records false err st Hf) as [He Hp].
        split; [exact Hp|]. split.
        + unfold generateProfile_resume.
          destruct (generateProfile_try false (Rejected err) st) as [st1 [e|]];
            reflexivity.
        + unfold error_shown.
          change (generateProfile_resume false (Rejected err) st)
            with (generateProfile_finally (generateProfile_catch false err st)).
          rewrite He. now destruct (err_message err). }
    destruct H as (Hp & Hl & He). split; [|exact He].
    unfold empty_notice, filteredProfiles. now rewrite Hp, Hl.
Qed.

Lemma failed_replace_shows_notice_witness :
  empty_notice (generateProfile_resume false (RespNotOk 500 "Server Error")
                  (showing sample_users "")) = true /\
  error_shown (generateProfile_resume false (RespNotOk 500 "Server Error")
                 (showing sample_users "")) = true.
Proof.
  apply (failed_replace_shows_notice (RawNum DEFAULT_COUNT) 1 mount
           (RespNotOk 500 "Server Error") (showing sample_users "")).
  reflexivity.
Defined.

(** ** The hook and the component *)

(** X19. The hook's loader and the component's replace load leave the same
    list: for every way a request can settle other than a cancellation
    (the hook passes no signal), the hook's [profile] after its
    [generateProfile] equals the component's working list after a replace
    load, namely the response on success and the empty list on any
    failure; the hook's [numberOfProfile] is not touched. *)
Theorem hook_agrees_with_replace_load (o : Outcome) (st : State)
    (hs : UseFetch.HookState) :
  is_abort o = false ->
  UseFetch.profile (UseFetch.generateProfile_resume o hs)
    = profile (generateProfile_resume false o st) /\
  UseFetch.numberOfProfile (UseFetch.generateProfile_resume o hs)
    = UseFetch.numberOfProfile hs.
Proof.
  intros Ha. destruct o as [data|status statusText|err].
  - split; [|reflexivity].
    unfold generateProfile_resume. simpl. now destruct (last data).
  - split; reflexivity.
  - split; [|reflexivity]. cbn [is_abort] in Ha.
    destruct (catch_records false err st Ha) as [_ Hp]. symmetry. exact Hp.
Qed.

Lemma hook_agrees_with_replace_load_witness :
  UseFetch.profile
    (UseFetch.generateProfile_resume (Rejected (mkError "TypeError" "Failed to fetch"))
       (UseFetch.mkHookState sample_users "5"))
  = profile (generateProfile_resume false (Rejected (mkError "TypeError" "Failed to fetch"))
               (showing sample_users "")).
Proof.
  apply (hook_agrees_with_replace_load (Rejected (mkError "TypeError" "Failed to fetch"))
           (showing sample_users "") (UseFetch.mkHookState sample_users "5")).
  reflexivity.
Defined.
